(** * A shallow embedding of the yt-dl FastAPI application (src/app/main.py)

    The application has three handlers: [download_youtube] (POST /download),
    its helper [download_audio_with_cookies], and [serve_file]
    (GET /download_file).  The external pieces are the file system, which is
    modelled as an explicit state threaded through the handlers, and yt-dlp's
    [extract_info], which is a parameter of the handlers (any function from
    the options dictionary and the URL to an outcome). *)

From Stdlib Require Import List PeanoNat NArith String Ascii Bool Lia.
Import ListNotations.

(* ------------------------------------------------------------------ *)
(** ** Python strings *)

Module Py.

(** A Python [str] is a sequence of Unicode code points. *)
Definition pystr := list N.

(** String literals of the source (all ASCII) as Python strings. *)
Definition lit (s : string) : pystr :=
  map N_of_ascii (list_ascii_of_string s).

Definition str_eqb (a b : pystr) : bool :=
  if list_eq_dec N.eq_dec a b then true else false.

(** [s.startswith(pre)] *)
Fixpoint startswith (s pre : pystr) : bool :=
  match pre, s with
  | [], _ => true
  | p :: pre', c :: s' => N.eqb p c && startswith s' pre'
  | _ :: _, [] => false
  end.

(** [s.endswith(suf)] *)
Definition endswith (s suf : pystr) : bool :=
  startswith (rev s) (rev suf).

(** [s.upper()] on the ASCII letters; it is applied only to the codec
    names "mp3" and "wav". *)
Definition upper (s : pystr) : pystr :=
  map (fun c => if (97 <=? c)%N && (c <=? 122)%N then (c - 32)%N else c) s.

End Py.

Import Py.

(* ------------------------------------------------------------------ *)
(** ** Title sanitisation (main.py, lines 85-87) *)

(** The nine characters of the regular expression's character class:
    backslash, slash, star, question mark, colon, double quote, less-than,
    greater-than and vertical bar. *)
Definition unsafe_chars : list N := [92; 47; 42; 63; 58; 34; 60; 62; 124]%N.

Definition is_unsafe (c : N) : bool := existsb (N.eqb c) unsafe_chars.

(** The code point of ["_"]. *)
Definition underscore : N := 95%N.

(** [safe_title = re.sub(<class>, "_", title)]: the pattern matches one
    character of the class at a time, and every match is replaced. *)
Definition re_sub_unsafe (title : pystr) : pystr :=
  map (fun c => if is_unsafe c then underscore else c) title.

(** [title = info.get("title", "downloaded_audio")] *)
Definition title_of (info_title : option pystr) : pystr :=
  match info_title with
  | Some t => t
  | None => lit "downloaded_audio"
  end.

(** [final_name = f"{safe_title}.{codec}"] *)
Definition final_name_of (title codec : pystr) : pystr :=
  re_sub_unsafe title ++ lit "." ++ codec.

(** [codec = "mp3" if format == "mp3" else "wav"] (main.py, line 111) *)
Definition resolve_codec (format : pystr) : pystr :=
  if str_eqb format (lit "mp3") then lit "mp3" else lit "wav".

(* ------------------------------------------------------------------ *)
(** ** The file system and pathlib *)

Module FS.

(** An absolute path as the list of its components below [/]. *)
Definition path := list pystr.

Definition path_eqb (p q : path) : bool :=
  if list_eq_dec (list_eq_dec N.eq_dec) p q then true else false.

(** The directories and the regular files (with their sizes in bytes) that
    exist, and the [st_size] the file system reports for a directory (it
    depends on the file system: 4096 on ext4, 0 for an empty btrfs
    directory, ...); symbolic links are not modelled.  The order of
    [fs_files] is the order in which [os.scandir] lists the entries of a
    directory. *)
Record fs := mkFS {
  fs_dirs : list path;
  fs_files : list (path * N);
  fs_dir_size : path -> N
}.

Definition is_dir (s : fs) (p : path) : bool :=
  match p with
  | [] => true
  | _ => existsb (path_eqb p) (fs_dirs s)
  end.

Definition file_size (s : fs) (p : path) : option N :=
  match find (fun e => path_eqb p (fst e)) (fs_files s) with
  | Some (_, n) => Some n
  | None => None
  end.

Definition is_file (s : fs) (p : path) : bool :=
  match file_size s p with Some _ => true | None => false end.

(** [str.split("/")]: the components between the separators. *)
Fixpoint split_sep (sep : N) (s : pystr) : list pystr :=
  match s with
  | [] => [[]]
  | c :: r =>
      if N.eqb c sep then [] :: split_sep sep r
      else match split_sep sep r with
           | h :: t => (c :: h) :: t
           | [] => [[c]]
           end
  end.

Definition slash : N := 47%N.

(** The parts pathlib keeps from a string: empty components (from
    repeated or trailing slashes) and [.] are dropped, [..] is kept. *)
Definition parse_parts (s : pystr) : path :=
  filter (fun seg => negb (str_eqb seg [] || str_eqb seg (lit ".")))
         (split_sep slash s).

(** [base / s] for a [pathlib.Path]: an absolute [s] replaces [base]. *)
Definition pure_join (base : path) (s : pystr) : path :=
  match s with
  | c :: _ => if N.eqb c slash then parse_parts s else base ++ parse_parts s
  | [] => base
  end.

(** The kernel's name lookup ([os.stat]): every component before the last
    must be a directory; [..] goes to the parent ([/..] is [/]).  The
    result is the path of the object named, [None] for ENOENT/ENOTDIR on
    an intermediate component. *)
Fixpoint walk (s : fs) (cur : path) (segs : path) : option path :=
  match segs with
  | [] => Some cur
  | seg :: r =>
      if str_eqb seg (lit "..") then walk s (removelast cur) r
      else
        let nxt := cur ++ [seg] in
        match r with
        | [] => Some nxt
        | _ :: _ => if is_dir s nxt then walk s nxt r else None
        end
  end.

(** [Path.exists()] *)
Definition path_exists (s : fs) (p : path) : bool :=
  match walk s [] p with
  | Some q => is_dir s q || is_file s q
  | None => false
  end.

(** [mkdir] of a fresh directory. *)
Definition mkdir (s : fs) (d : path) : fs :=
  mkFS (fs_dirs s ++ [d]) (fs_files s) (fs_dir_size s).

(** The entries a tool leaves in the empty directory [d], given by name and
    size in the order the directory lists them. *)
Definition write_files (s : fs) (d : path) (written : list (pystr * N)) : fs :=
  mkFS (fs_dirs s)
       (fs_files s ++ map (fun e => (d ++ [fst e], snd e)) written)
       (fs_dir_size s).

(** [src.rename(dst)] ([os.rename]): the destination, if it exists, is
    replaced. *)
Definition rename (s : fs) (src dst : path) : fs :=
  match file_size s src with
  | Some n =>
      mkFS (fs_dirs s)
           (filter (fun e => negb (path_eqb src (fst e) || path_eqb dst (fst e)))
                   (fs_files s) ++ [(dst, n)])
           (fs_dir_size s)
  | None => s
  end.

(** The number of bytes of a code point in UTF-8, the file system
    encoding. *)
Definition utf8_len_cp (c : N) : N :=
  if (c <? 128)%N then 1 else if (c <? 2048)%N then 2
  else if (c <? 65536)%N then 3 else 4.

Definition utf8_len (nm : pystr) : N :=
  fold_right (fun c acc => (utf8_len_cp c + acc)%N) 0%N nm.

Definition is_surrogate (c : N) : bool := (55296 <=? c)%N && (c <=? 57343)%N.

(** Whether the kernel accepts [nm] as a new directory entry: Python
    refuses a NUL (ValueError) and a lone surrogate (UnicodeEncodeError),
    the kernel a name of more than NAME_MAX = 255 bytes (ENAMETOOLONG). *)
Definition name_ok (nm : pystr) : bool :=
  (utf8_len nm <=? 255)%N && negb (existsb (N.eqb 0) nm)
  && negb (existsb is_surrogate nm).

(** [Path.rename] into an existing directory: [None] when it raises. *)
Definition os_rename (s : fs) (src dst : path) : option fs :=
  if name_ok (last dst []) then Some (rename s src dst) else None.

(** [Path.stat().st_size] of an existing path. *)
Definition stat_size (s : fs) (p : path) : option N :=
  match walk s [] p with
  | Some q =>
      match file_size s q with
      | Some n => Some n
      | None => if is_dir s q then Some (fs_dir_size s q) else None
      end
  | None => None
  end.

(** The name of [p] when [p] is an entry of directory [d]. *)
Definition entry_of (d p : path) : option pystr :=
  if Nat.eqb (List.length p) (S (List.length d)) && path_eqb (firstn (List.length d) p) d
  then Some (last p []) else None.

(** [next(d.glob("*" + suffix), None)]: the first regular file of [d]
    whose name ends with [suffix], in the order [os.scandir] lists [d]. *)
Definition glob_first (s : fs) (d : path) (suffix : pystr) : option path :=
  match find (fun e => match entry_of d (fst e) with
                       | Some nm => endswith nm suffix
                       | None => false
                       end) (fs_files s) with
  | Some (p, _) => Some p
  | None => None
  end.

End FS.

Import FS.

(* ------------------------------------------------------------------ *)
(** ** The application (src/app/main.py) *)

Module App.

(** [DOWNLOAD_DIR = Path(tempfile.gettempdir()) / "yt_audio_downloads"],
    with [gettempdir()] = [/tmp] (TMPDIR unset on a POSIX host). *)
Definition DOWNLOAD_DIR : path := [lit "tmp"; lit "yt_audio_downloads"].

(** [COOKIES_FILE = Path("/etc/secrets/cookies.txt")] *)
Definition COOKIES_FILE : path := [lit "etc"; lit "secrets"; lit "cookies.txt"].

(** The options dictionary handed to [YoutubeDL]; [cookiefile] is the
    optional key. *)
Record ydl_opts := mkOpts {
  opt_format : pystr;
  opt_outtmpl : path;
  opt_noplaylist : bool;
  opt_quiet : bool;
  opt_no_warnings : bool;
  opt_preferredcodec : pystr;
  opt_preferredquality : pystr;
  opt_cookiefile : option path
}.

(** The info dictionary returned by [extract_info]; only its [title] key is
    read ([None] when the key is absent). *)
Record info_dict := mkInfo { info_id : pystr; info_title : option pystr }.

(** What [ydl.extract_info(url, download=True)] does: it raises an
    exception with some text, or returns the info dictionary.  [written]
    is what the (fresh, empty) output directory of [outtmpl] holds when it
    returns or raises: the entries (name, size) in the order [os.scandir]
    lists them.  Its effects outside that directory (cache, cookie jar)
    are not modelled. *)
Inductive extract_outcome :=
| Raised (exc_text : pystr) (written : list (pystr * N))
| Returned (info : info_dict) (written : list (pystr * N)).

Definition outcome_written (o : extract_outcome) : list (pystr * N) :=
  match o with Raised _ w | Returned _ w => w end.

Inductive http_exception := HTTPException (status_code : N) (detail : pystr).

Definition status_of (e : http_exception) : N :=
  match e with HTTPException c _ => c end.
Definition detail_of (e : http_exception) : pystr :=
  match e with HTTPException _ d => d end.

Definition blocked_detail : pystr :=
  lit "YouTube blocked this request. Cookies may be missing or expired.".
Definition conversion_detail : pystr := lit "Audio conversion failed.".
Definition invalid_url_detail : pystr := lit "Invalid YouTube URL.".

(** An exception no handler catches (here the OSError or ValueError of the
    rename) reaches Starlette's ServerErrorMiddleware, which answers 500
    with this body. *)
Definition internal_error_detail : pystr := lit "Internal Server Error".

(** Lines 49-68: the options, with the cookie file attached only when it
    exists and its [st_size] is positive. *)
Definition ydl_opts_of (s : fs) (job_dir : path) (codec : pystr) : ydl_opts :=
  let quality := if str_eqb codec (lit "mp3") then lit "192" else lit "0" in
  let cookiefile :=
    if path_exists s COOKIES_FILE &&
       match stat_size s COOKIES_FILE with Some n => (0 <? n)%N | None => false end
    then Some COOKIES_FILE else None in
  mkOpts (lit "bestaudio/best") (job_dir ++ [lit "%(id)s.%(ext)s"])
         true true true codec quality cookiefile.

Section Handlers.

(** yt-dlp's [extract_info], an external collaborator. *)
Variable extract_info : ydl_opts -> pystr -> extract_outcome.

(** [download_audio_with_cookies(url, codec)] (lines 46-92).  [rand] is
    the random part of the name [tempfile.mkdtemp(prefix="yt_")] picks;
    mkdtemp only returns a name that does not exist yet.  The result is the
    triple [(final_name, job_dir.name, title)] or the HTTPException raised
    (for the uncaught error of a failing rename, the 500 Starlette answers
    with), together with the file system afterwards. *)
Definition download_audio_with_cookies (rand url codec : pystr) (s0 : fs)
  : (http_exception + (pystr * pystr * pystr)) * fs :=
  let job_name := lit "yt_" ++ rand in
  let job_dir := DOWNLOAD_DIR ++ [job_name] in
  let s1 := mkdir s0 job_dir in
  let opts := ydl_opts_of s1 job_dir codec in
  match extract_info opts url with
  | Raised _ written =>
      (inl (HTTPException 500 blocked_detail), write_files s1 job_dir written)
  | Returned info written =>
      let s2 := write_files s1 job_dir written in
      match glob_first s2 job_dir (lit "." ++ codec) with
      | None => (inl (HTTPException 500 conversion_detail), s2)
      | Some file_path =>
          let title := title_of (info_title info) in
          let final_name := final_name_of title codec in
          let final_path := pure_join job_dir final_name in
          match os_rename s2 file_path final_path with
          | Some s3 => (inr (final_name, job_name, title), s3)
          | None => (inl (HTTPException 500 internal_error_detail), s2)
          end
      end
  end.

(** The context rendered into [result.html]. *)
Record result_page := mkPage {
  page_title : pystr; page_format : pystr; page_download_url : pystr }.

Definition url_ok (url : pystr) : bool :=
  startswith url (lit "http://") || startswith url (lit "https://").

(** [download_youtube(url, format)] (lines 103-128), POST /download. *)
Definition download_youtube (rand url format : pystr) (s : fs)
  : (http_exception + result_page) * fs :=
  if negb (url_ok url) then (inl (HTTPException 400 invalid_url_detail), s)
  else
    let codec := resolve_codec format in
    match download_audio_with_cookies rand url codec s with
    | (inl e, s') => (inl e, s')
    | (inr (final_name, job_dir, title), s') =>
        (inr (mkPage title (upper codec)
                (lit "/download_file?filename=" ++ final_name
                 ++ lit "&job_dir=" ++ job_dir)), s')
    end.

End Handlers.




End App.

Import App.

(* ------------------------------------------------------------------ *)
(** ** Paths written as strings, and a concrete run *)

(** A single path component that pathlib and the kernel take literally:
    no separator, not empty, not [.] and not [..]. *)
Definition plain_seg (x : pystr) : bool :=
  negb (existsb (N.eqb slash) x) && negb (str_eqb x [])
  && negb (str_eqb x (lit ".")) && negb (str_eqb x (lit "..")).



(** A host right after start-up: [/tmp/yt_audio_downloads] exists, and so
    does an unrelated file [/etc/passwd]. *)
Definition host_fs : fs :=
  mkFS [[lit "tmp"]; DOWNLOAD_DIR; [lit "etc"]]
       [([lit "etc"; lit "passwd"], 1024%N)]
       (fun _ => 4096%N).

(** A yt-dlp stand-in: title [My/Song: Live], id [abc], and [abc.mp3] of
    [size] bytes written into the output directory. *)
Definition stub_extract (size : N) (o : ydl_opts) (u : pystr) : extract_outcome :=
  Returned (mkInfo (lit "abc") (Some (lit "My/Song: Live"))) [(lit "abc.mp3", size)].

(** A yt-dlp stand-in that fails the way yt-dlp reports a blocked video. *)
Definition failing_extract (o : ydl_opts) (u : pystr) : extract_outcome :=
  Raised (lit "ERROR: [youtube] abc: Sign in to confirm you are not a bot")
         [(lit "abc.webm.part", 4096%N)].


Definition job_of (rand : pystr) : path := DOWNLOAD_DIR ++ [lit "yt_" ++ rand].


(** A host where [/etc/secrets/cookies.txt] is a directory (e.g. a volume
    mounted at the wrong place), on a file system giving directories an
    [st_size] of 4096. *)
Definition cookie_dir_fs : fs :=
  mkFS [[lit "tmp"]; DOWNLOAD_DIR; [lit "etc"]; [lit "etc"; lit "secrets"]; COOKIES_FILE]
       [] (fun _ => 4096%N).

(* ------------------------------------------------------------------ *)
(** ** The earlier iteration (src/app/main copy.py) *)

Module MainCopy.

(** [COOKIES_FILE = BASE_DIR / "cookies.txt"], [BASE_DIR] being the
    directory of the module. *)
Definition COOKIES_FILE (BASE_DIR : path) : path := BASE_DIR ++ [lit "cookies.txt"].

(** Lines 40-58: the same options, the cookie file attached whenever it
    exists. *)
Definition ydl_opts_of (BASE_DIR : path) (s : fs) (job_dir : path) (codec : pystr)
  : ydl_opts :=
  let quality := if str_eqb codec (lit "mp3") then lit "192" else lit "0" in
  let cookiefile :=
    if path_exists s (COOKIES_FILE BASE_DIR) then Some (COOKIES_FILE BASE_DIR)
    else None in
  mkOpts (lit "bestaudio/best") (job_dir ++ [lit "%(id)s.%(ext)s"])
         true true true codec quality cookiefile.

(** [title.replace("/", "_")] *)
Definition replace_slash (title : pystr) : pystr :=
  map (fun c => if N.eqb c slash then underscore else c) title.

Section Handlers.

Variable BASE_DIR : path.
Variable extract_info : ydl_opts -> pystr -> extract_outcome.

(** [download_audio_with_cookies(url, codec)] (lines 36-76); the second
    component of the triple is the path of [job_dir], [str(e)] is the
    exception text. *)
Definition download_audio_with_cookies (rand url codec : pystr) (s0 : fs)
  : (http_exception + (pystr * path * pystr)) * fs :=
  let job_dir := DOWNLOAD_DIR ++ [lit "yt_" ++ rand] in
  let s1 := mkdir s0 job_dir in
  let opts := ydl_opts_of BASE_DIR s1 job_dir codec in
  match extract_info opts url with
  | Raised e written =>
      (inl (HTTPException 500 (lit "Download failed: " ++ e)),
       write_files s1 job_dir written)
  | Returned info written =>
      let s2 := write_files s1 job_dir written in
      match glob_first s2 job_dir (lit "." ++ codec) with
      | None => (inl (HTTPException 500 (lit "Conversion failed.")), s2)
      | Some file_path =>
          let title := replace_slash (title_of (info_title info)) in
          let final_name := title ++ lit "." ++ codec in
          let final_path := pure_join job_dir final_name in
          match os_rename s2 file_path final_path with
          | Some s3 => (inr (final_name, job_dir, title), s3)
          | None => (inl (HTTPException 500 internal_error_detail), s2)
          end
      end
  end.

(** [download_youtube(url, format)] (lines 86-103). *)
Definition download_youtube (rand url format : pystr) (s : fs)
  : (http_exception + result_page) * fs :=
  if negb (url_ok url) then (inl (HTTPException 400 invalid_url_detail), s)
  else
    let codec := resolve_codec format in
    match download_audio_with_cookies rand url codec s with
    | (inl e, s') => (inl e, s')
    | (inr (final_name, job_dir, title), s') =>
        (inr (mkPage title (upper codec)
                (lit "/download_file/" ++ final_name
                 ++ lit "?job_dir=" ++ last job_dir [])), s')
    end.

End Handlers.

End MainCopy.

(* ------------------------------------------------------------------ *)
(** ** General lemmas *)

Lemma str_eqb_eq (a b : pystr) : str_eqb a b = true <-> a = b.
Proof.
  unfold str_eqb; destruct (list_eq_dec N.eq_dec a b); split; congruence.
Qed.

Lemma str_eqb_refl (a : pystr) : str_eqb a a = true.
Proof. apply str_eqb_eq; reflexivity. Qed.

Lemma path_eqb_eq (p q : path) : path_eqb p q = true <-> p = q.
Proof.
  unfold path_eqb; destruct (list_eq_dec (list_eq_dec N.eq_dec) p q);
    split; congruence.
Qed.

Lemma is_unsafe_underscore : is_unsafe underscore = false.
Proof. reflexivity. Qed.

Lemma nth_error_re_sub (title : pystr) (i : nat) (c : N) :
  nth_error title i = Some c ->
  nth_error (re_sub_unsafe title) i = Some (if is_unsafe c then underscore else c).
Proof.
  intro H; unfold re_sub_unsafe; rewrite nth_error_map, H; reflexivity.
Qed.

(* ------------------------------------------------------------------ *)
(** ** Codec selection *)

(** C5: the codec is mp3 exactly for the literal format [mp3], and wav for
    every other format string (the empty string, [MP3] and [ogg] among
    them). *)
Theorem resolve_codec_mp3_or_wav (format : pystr) :
  (format = lit "mp3" /\ resolve_codec format = lit "mp3")
  \/ (format <> lit "mp3" /\ resolve_codec format = lit "wav").
Proof.
  unfold resolve_codec.
  destruct (str_eqb format (lit "mp3")) eqn:E.
  - left; split; [apply str_eqb_eq; exact E | reflexivity].
  - right; split; [|reflexivity].
    intro Heq; subst; rewrite str_eqb_refl in E; discriminate.
Qed.

(* ------------------------------------------------------------------ *)
(** ** URL validation *)

(** C6: a URL starting neither with [http://] nor with [https://] is
    rejected with HTTP 400 before anything is created: the file system is
    returned unchanged, so no workspace directory appears. *)
Theorem download_youtube_invalid_url
  (extract_info : ydl_opts -> pystr -> extract_outcome)
  (rand url format : pystr) (s : fs)
  (Hhttp : startswith url (lit "http://") = false)
  (Hhttps : startswith url (lit "https://") = false) :
  download_youtube extract_info rand url format s
  = (inl (HTTPException 400 invalid_url_detail), s).
Proof.
  unfold download_youtube, url_ok; rewrite Hhttp, Hhttps; reflexivity.
Qed.

Lemma download_youtube_invalid_url_witness :
  startswith (lit "ftp://example.com/a") (lit "http://") = false
  /\ startswith (lit "ftp://example.com/a") (lit "https://") = false
  /\ download_youtube failing_extract (lit "abc") (lit "ftp://example.com/a")
       (lit "mp3") host_fs
     = (inl (HTTPException 400 invalid_url_detail), host_fs).
Proof.
  split; [reflexivity|]; split; [reflexivity|].
  apply download_youtube_invalid_url; reflexivity.
Defined.

(* ------------------------------------------------------------------ *)
(** ** Title sanitisation *)

(** C4: the sanitiser replaces exactly the nine characters backslash,
    slash, star, question mark, colon, double quote (code point 34),
    less-than, greater-than and bar by an underscore and keeps every other
    code point, the final name appends a dot and the codec, and for the
    title [My/Song: Live] with codec mp3 the artifact is renamed to
    [My_Song_ Live.mp3]. *)
Theorem sanitize_and_final_name :
  (forall c, is_unsafe c = true
             <-> In c (lit "\/*?:") \/ c = 34%N \/ In c (lit "<>|"))
  /\ underscore = N_of_ascii "_"
  /\ (forall title, List.length (re_sub_unsafe title) = List.length title
        /\ forall i c, nth_error title i = Some c ->
             nth_error (re_sub_unsafe title) i
             = Some (if is_unsafe c then underscore else c))
  /\ (forall title codec,
        final_name_of title codec = re_sub_unsafe title ++ lit "." ++ codec)
  /\ final_name_of (lit "My/Song: Live") (resolve_codec (lit "mp3"))
     = lit "My_Song_ Live.mp3"
  /\ exists page s',
       download_youtube (stub_extract 5) (lit "abc")
         (lit "https://example.com/watch?v=abc") (lit "mp3") host_fs
       = (inr page, s')
       /\ file_size s' (job_of (lit "abc") ++ [lit "My_Song_ Live.mp3"])
          = Some 5%N.
Proof.
  split.
  { intro c; unfold is_unsafe, unsafe_chars; simpl.
    split; intro H.
    - repeat (apply orb_true_iff in H; destruct H as [H|H]);
        try discriminate; apply N.eqb_eq in H; subst; simpl; tauto.
    - destruct H as [H|[H|H]]; simpl in H;
        repeat (destruct H as [H|H]; [subst; reflexivity|]);
        try contradiction; subst; reflexivity. }
  split; [reflexivity|].
  split.
  { intro title; split.
    - unfold re_sub_unsafe; apply length_map.
    - apply nth_error_re_sub. }
  split; [reflexivity|].
  split; [reflexivity|].
  eexists; eexists; split; [reflexivity|reflexivity].
Qed.

Lemma re_sub_no_slash (t : pystr) : existsb (N.eqb slash) (re_sub_unsafe t) = false.
Proof.
  induction t as [|a t IH]; [reflexivity|].
  cbn [re_sub_unsafe map existsb] in *; fold (re_sub_unsafe t).
  destruct (is_unsafe a) eqn:E.
  - exact IH.
  - destruct (N.eqb_spec slash a) as [Ha|Ha]; [subst; discriminate E|].
    exact IH.
Qed.

Lemma split_sep_no_sep (sep : N) (x : pystr) :
  existsb (N.eqb sep) x = false -> split_sep sep x = [x].
Proof.
  induction x as [|c x IH]; intro H; [reflexivity|].
  simpl in H; apply orb_false_iff in H as [H1 H2].
  simpl; rewrite N.eqb_sym, H1, IH by exact H2; reflexivity.
Qed.

Lemma resolve_codec_cases (format : pystr) :
  resolve_codec format = lit "mp3" \/ resolve_codec format = lit "wav".
Proof.
  unfold resolve_codec; destruct (str_eqb format (lit "mp3")); auto.
Qed.

(** C9: sanitising twice gives what sanitising once gives, because the
    replacement character is not one of the replaced ones. *)
Theorem re_sub_unsafe_idempotent (title : pystr) :
  re_sub_unsafe (re_sub_unsafe title) = re_sub_unsafe title.
Proof.
  unfold re_sub_unsafe; rewrite map_map; apply map_ext; intro c.
  destruct (is_unsafe c) eqn:E; [rewrite is_unsafe_underscore|rewrite E];
    reflexivity.
Qed.

Lemma final_name_plain (title format : pystr) (d : path) :
  existsb (N.eqb slash) (final_name_of title (resolve_codec format)) = false
  /\ plain_seg (final_name_of title (resolve_codec format)) = true
  /\ pure_join d (final_name_of title (resolve_codec format))
     = d ++ [final_name_of title (resolve_codec format)].
Proof.
  set (fn := final_name_of title (resolve_codec format)).
  assert (Hns : existsb (N.eqb slash) fn = false).
  { unfold fn, final_name_of; rewrite !existsb_app, re_sub_no_slash.
    destruct (resolve_codec_cases format) as [-> | ->]; reflexivity. }
  assert (Hlen : (4 <= List.length fn)%nat).
  { unfold fn, final_name_of; rewrite !length_app.
    destruct (resolve_codec_cases format) as [-> | ->]; simpl; lia. }
  assert (Hplain : plain_seg fn = true).
  { unfold plain_seg; rewrite Hns; simpl.
    destruct (str_eqb fn []) eqn:E1;
      [apply str_eqb_eq in E1; rewrite E1 in Hlen; simpl in Hlen; lia|].
    destruct (str_eqb fn (lit ".")) eqn:E2;
      [apply str_eqb_eq in E2; rewrite E2 in Hlen; simpl in Hlen; lia|].
    destruct (str_eqb fn (lit "..")) eqn:E3;
      [apply str_eqb_eq in E3; rewrite E3 in Hlen; simpl in Hlen; lia|].
    reflexivity. }
  split; [exact Hns|]; split; [exact Hplain|].
  unfold plain_seg in Hplain.
  apply andb_true_iff in Hplain as [Hplain H3].
  apply andb_true_iff in Hplain as [Hplain H2].
  apply andb_true_iff in Hplain as [_ H1].
  unfold pure_join, parse_parts.
  rewrite split_sep_no_sep by exact Hns.
  destruct fn as [|c r] eqn:Efn; [simpl in Hlen; lia|].
  cbn [existsb] in Hns; apply orb_false_iff in Hns as [Hc _].
  cbn iota beta; rewrite (N.eqb_sym c slash), Hc.
  cbn [filter]; fold slash.
  apply negb_true_iff in H1; apply negb_true_iff in H2.
  rewrite H1, H2; reflexivity.
Qed.

(** C10: whatever the title, the final name for the resolved codec has no
    [/], is a plain component (not empty, [.] or [..]), and joining it to a
    directory (the job's workspace in [download_audio_with_cookies]) adds
    exactly that one component. *)
Theorem final_name_single_component (title format : pystr) (d : path) :
  existsb (N.eqb slash) (final_name_of title (resolve_codec format)) = false
  /\ plain_seg (final_name_of title (resolve_codec format)) = true
  /\ pure_join d (final_name_of title (resolve_codec format))
     = d ++ [final_name_of title (resolve_codec format)].
Proof. apply final_name_plain. Qed.

(* ------------------------------------------------------------------ *)
(** ** Cookies *)

(** C8: the cookie file is attached exactly when it exists and the size
    [stat] reports for it ([st_size], which a directory at that path also
    has) is positive; when it is missing or of size zero the [cookiefile]
    key is simply left out ([ydl_opts_of] is total: nothing is raised). *)
Theorem cookiefile_attached_iff (s : fs) (job_dir : path) (codec : pystr) :
  (opt_cookiefile (ydl_opts_of s job_dir codec) = Some COOKIES_FILE
   <-> path_exists s COOKIES_FILE = true
       /\ exists n, stat_size s COOKIES_FILE = Some n /\ (0 < n)%N)
  /\ (opt_cookiefile (ydl_opts_of s job_dir codec) = None
      <-> path_exists s COOKIES_FILE = false
          \/ stat_size s COOKIES_FILE = Some 0%N
          \/ stat_size s COOKIES_FILE = None).
Proof.
  unfold ydl_opts_of; simpl.
  destruct (path_exists s COOKIES_FILE) eqn:Ep; simpl.
  - destruct (stat_size s COOKIES_FILE) as [n|] eqn:Ef.
    + destruct (N.ltb_spec 0 n) as [Hn|Hn].
      * split; split; intro H; try discriminate.
        -- split; [reflexivity|]; exists n; split; [reflexivity|exact Hn].
        -- reflexivity.
        -- exfalso; destruct H as [H|[H|H]]; try discriminate.
           injection H as ->; lia.
      * assert (n = 0%N) as -> by lia.
        split; split; intro H; try discriminate.
        -- destruct H as [_ [m [Hm Hlt]]]; injection Hm as <-; lia.
        -- right; left; reflexivity.
        -- reflexivity.
    + split; split; intro H; try discriminate.
      * destruct H as [_ [m [Hm _]]]; discriminate.
      * right; right; reflexivity.
      * reflexivity.
  - split; split; intro H; try discriminate.
    + destruct H as [H _]; discriminate.
    + left; reflexivity.
    + reflexivity.
Qed.

(* ------------------------------------------------------------------ *)
(** ** Failures of the extraction *)

(** What [download_youtube] does with an accepted URL, with the call to
    yt-dlp made explicit. *)
Lemma download_youtube_accepted
  (extract_info : ydl_opts -> pystr -> extract_outcome)
  (rand url format : pystr) (s : fs) :
  url_ok url = true ->
  let codec := resolve_codec format in
  let job := job_of rand in
  let s1 := mkdir s job in
  download_youtube extract_info rand url format s
  = match extract_info (ydl_opts_of s1 job codec) url with
    | Raised _ written =>
        (inl (HTTPException 500 blocked_detail), write_files s1 job written)
    | Returned info written =>
        let s2 := write_files s1 job written in
        match glob_first s2 job (lit "." ++ codec) with
        | None => (inl (HTTPException 500 conversion_detail), s2)
        | Some file_path =>
            let title := title_of (info_title info) in
            let final_name := final_name_of title codec in
            match os_rename s2 file_path (pure_join job final_name) with
            | Some s3 =>
                (inr (mkPage title (upper codec)
                        (lit "/download_file?filename=" ++ final_name
                         ++ lit "&job_dir=" ++ (lit "yt_" ++ rand))), s3)
            | None => (inl (HTTPException 500 internal_error_detail), s2)
            end
        end
    end.
Proof.
  intro Hurl; unfold download_youtube; rewrite Hurl; cbn [negb].
  unfold download_audio_with_cookies, job_of.
  destruct (extract_info _ url); [reflexivity|].
  destruct (glob_first _ _ _); [|reflexivity].
  destruct (os_rename _ _ _); reflexivity.
Qed.

(** C7: when yt-dlp raises, whatever its exception text, the caller gets
    HTTP 500 with one fixed message, which contains no path separator. *)
Theorem extraction_failure_generic_detail
  (extract_info : ydl_opts -> pystr -> extract_outcome)
  (rand url format : pystr) (s : fs)
  (Hurl : url_ok url = true)
  (Hraise : forall o, exists t w, extract_info o url = Raised t w) :
  fst (download_youtube extract_info rand url format s)
  = inl (HTTPException 500 blocked_detail)
  /\ existsb (N.eqb slash) blocked_detail = false.
Proof.
  split; [|reflexivity].
  rewrite (download_youtube_accepted extract_info rand url format s Hurl).
  cbv zeta.
  destruct (Hraise (ydl_opts_of (mkdir s (job_of rand)) (job_of rand)
                      (resolve_codec format))) as (t & w & E).
  rewrite E; reflexivity.
Qed.

Lemma extraction_failure_generic_detail_witness :
  url_ok (lit "https://www.youtube.com/watch?v=abc") = true
  /\ (forall o, exists t w,
        failing_extract o (lit "https://www.youtube.com/watch?v=abc") = Raised t w)
  /\ fst (download_youtube failing_extract (lit "abc")
            (lit "https://www.youtube.com/watch?v=abc") (lit "mp3") host_fs)
     = inl (HTTPException 500 blocked_detail)
  /\ existsb (N.eqb slash) blocked_detail = false.
Proof.
  assert (Hr : forall o, exists t w,
             failing_extract o (lit "https://www.youtube.com/watch?v=abc")
             = Raised t w).
  { intro o; do 2 eexists; reflexivity. }
  split; [reflexivity|]; split; [exact Hr|].
  apply extraction_failure_generic_detail; [reflexivity|exact Hr].
Defined.

(* ------------------------------------------------------------------ *)
(** ** Zero-byte output *)

Lemma find_app_none {A} (f : A -> bool) (l1 l2 : list A) :
  (forall x, In x l1 -> f x = false) -> find f (l1 ++ l2) = find f l2.
Proof.
  induction l1 as [|a l1 IH]; intro H; [reflexivity|].
  simpl; rewrite (H a (or_introl eq_refl)).
  apply IH; intros x Hx; apply H; right; exact Hx.
Qed.


Lemma entry_of_child (d : path) (x : pystr) : entry_of d (d ++ [x]) = Some x.
Proof.
  unfold entry_of; rewrite length_app; simpl.
  rewrite Nat.add_1_r, Nat.eqb_refl, firstn_app, firstn_all, Nat.sub_diag.
  simpl; rewrite app_nil_r, (proj2 (path_eqb_eq d d) eq_refl), last_last.
  reflexivity.
Qed.

(** The files a tool writes into a fresh directory are found there under
    their names, with their sizes, as long as no earlier entry of the
    listing has the same name. *)
Lemma file_size_write_files (s : fs) (d : path) (pre : list (pystr * N))
  (nm : pystr) (n : N) (post : list (pystr * N)) :
  (forall p sz, In (p, sz) (fs_files s) -> entry_of d p = None) ->
  (forall sz, ~ In (nm, sz) pre) ->
  file_size (write_files s d (pre ++ (nm, n) :: post)) (d ++ [nm]) = Some n.
Proof.
  intros Hfresh Hpre; unfold file_size, write_files; cbn [fs_files].
  rewrite find_app_none.
  - rewrite map_app, find_app_none.
    + cbn [map find fst]; rewrite (proj2 (path_eqb_eq _ _) eq_refl); reflexivity.
    + intros x Hx; apply in_map_iff in Hx as [[nm' sz] [<- Hin]]; cbn [fst].
      destruct (path_eqb (d ++ [nm]) (d ++ [nm'])) eqn:E; [|reflexivity].
      apply path_eqb_eq, app_inv_head in E; injection E as <-.
      exfalso; exact (Hpre sz Hin).
  - intros [p sz] Hin; cbn [fst].
    destruct (path_eqb (d ++ [nm]) p) eqn:E; [|reflexivity].
    apply path_eqb_eq in E; subst p.
    specialize (Hfresh _ _ Hin); rewrite entry_of_child in Hfresh; discriminate.
Qed.

Lemma file_size_write_files_in (s : fs) (d : path) (w : list (pystr * N))
  (nm : pystr) (n : N) :
  (forall p sz, In (p, sz) (fs_files s) -> entry_of d p = None) ->
  NoDup (map fst w) -> In (nm, n) w ->
  file_size (write_files s d w) (d ++ [nm]) = Some n.
Proof.
  intros Hfresh Hnd Hin.
  apply in_split in Hin as (pre & post & ->).
  apply file_size_write_files; [exact Hfresh|].
  intros sz Hsz; rewrite map_app in Hnd; cbn [map fst] in Hnd.
  apply NoDup_remove_2 in Hnd; apply Hnd, in_or_app; left.
  apply in_map_iff; exists (nm, sz); split; [reflexivity|exact Hsz].
Qed.

Lemma is_dir_job_written (s : fs) (rand : pystr) (w : list (pystr * N)) :
  is_dir (write_files (mkdir s (job_of rand)) (job_of rand) w) (job_of rand) = true.
Proof.
  unfold is_dir, job_of, DOWNLOAD_DIR; cbn [app].
  unfold write_files, mkdir; cbn [fs_dirs].
  apply existsb_exists; exists (DOWNLOAD_DIR ++ [lit "yt_" ++ rand]).
  split; [apply in_or_app; right; left; reflexivity|].
  apply path_eqb_eq; reflexivity.
Qed.

(** Every failing request after the URL check leaves the file system as
    yt-dlp left it: the fresh workspace with what yt-dlp wrote into it. *)
Lemma download_failure_state
  (extract_info : ydl_opts -> pystr -> extract_outcome)
  (rand url format : pystr) (s s' : fs) (e : http_exception)
  (Hurl : url_ok url = true)
  (Hres : download_youtube extract_info rand url format s = (inl e, s')) :
  let out := extract_info (ydl_opts_of (mkdir s (job_of rand)) (job_of rand)
                                       (resolve_codec format)) url in
  (e = HTTPException 500 blocked_detail \/ e = HTTPException 500 conversion_detail
   \/ e = HTTPException 500 internal_error_detail)
  /\ s' = write_files (mkdir s (job_of rand)) (job_of rand) (outcome_written out).
Proof.
  intro out.
  rewrite (download_youtube_accepted extract_info rand url format s Hurl) in Hres.
  cbv zeta in Hres; fold out in Hres; unfold outcome_written.
  destruct out as [t w|i w].
  - injection Hres as <- <-; split; [left|]; reflexivity.
  - destruct (glob_first _ _ _); [destruct (os_rename _ _ _)|].
    + discriminate.
    + injection Hres as <- <-; split; [right; right|]; reflexivity.
    + injection Hres as <- <-; split; [right; left|]; reflexivity.
Qed.

(** C1, as stated: after a raising extraction the workspace is gone.
    It fails: with [failing_extract] on a valid URL the workspace
    [/tmp/yt_audio_downloads/yt_abc] is still a directory afterwards. *)
Lemma workspace_removed_on_failure_counterexample :
  ~ (forall (extract_info : ydl_opts -> pystr -> extract_outcome)
            (rand url format : pystr) (s : fs),
        url_ok url = true ->
        (forall o, exists t w, extract_info o url = Raised t w) ->
        is_dir (snd (download_youtube extract_info rand url format s))
               (job_of rand) = false).
Proof.
  intro H.
  specialize (H failing_extract (lit "abc")
                (lit "https://www.youtube.com/watch?v=abc") (lit "mp3") host_fs
                eq_refl (fun o => ex_intro _ _ (ex_intro _ _ eq_refl))).
  vm_compute in H; discriminate H.
Qed.

(** C1, as the code does it: every failure after the URL check is an
    HTTP 500 (the fixed message for a raising extraction, the one for a
    missing output file, or Starlette's [Internal Server Error] when the
    final rename raises), the workspace directory allocated for the job
    still exists afterwards, and so does every file yt-dlp wrote into it,
    with its size: nothing is deleted. *)
Theorem workspace_kept_on_failure
  (extract_info : ydl_opts -> pystr -> extract_outcome)
  (rand url format : pystr) (s s' : fs) (e : http_exception)
  (Hurl : url_ok url = true)
  (Hfresh : forall p sz, In (p, sz) (fs_files s) -> entry_of (job_of rand) p = None)
  (Hres : download_youtube extract_info rand url format s = (inl e, s')) :
  let written := outcome_written
                   (extract_info (ydl_opts_of (mkdir s (job_of rand)) (job_of rand)
                                              (resolve_codec format)) url) in
  (e = HTTPException 500 blocked_detail \/ e = HTTPException 500 conversion_detail
   \/ e = HTTPException 500 internal_error_detail)
  /\ is_dir s' (job_of rand) = true
  /\ (NoDup (map fst written) ->
      forall nm sz, In (nm, sz) written -> file_size s' (job_of rand ++ [nm]) = Some sz).
Proof.
  intro written.
  destruct (download_failure_state extract_info rand url format s s' e Hurl Hres)
    as [He ->].
  split; [exact He|]; split; [apply is_dir_job_written|].
  intros Hnd nm sz Hin; apply file_size_write_files_in; [|exact Hnd|exact Hin].
  intros p sz' Hp; apply (Hfresh p sz'); exact Hp.
Qed.

Lemma workspace_kept_on_failure_witness :
  url_ok (lit "https://www.youtube.com/watch?v=abc") = true
  /\ download_youtube failing_extract (lit "abc")
       (lit "https://www.youtube.com/watch?v=abc") (lit "mp3") host_fs
     = (inl (HTTPException 500 blocked_detail),
        snd (download_youtube failing_extract (lit "abc")
               (lit "https://www.youtube.com/watch?v=abc") (lit "mp3") host_fs))
  /\ is_dir (snd (download_youtube failing_extract (lit "abc")
                   (lit "https://www.youtube.com/watch?v=abc") (lit "mp3") host_fs))
            (job_of (lit "abc")) = true
  /\ file_size (snd (download_youtube failing_extract (lit "abc")
                   (lit "https://www.youtube.com/watch?v=abc") (lit "mp3") host_fs))
            (job_of (lit "abc") ++ [lit "abc.webm.part"]) = Some 4096%N.
Proof.
  assert (Hres : download_youtube failing_extract (lit "abc")
       (lit "https://www.youtube.com/watch?v=abc") (lit "mp3") host_fs
     = (inl (HTTPException 500 blocked_detail),
        snd (download_youtube failing_extract (lit "abc")
               (lit "https://www.youtube.com/watch?v=abc") (lit "mp3") host_fs)))
    by reflexivity.
  assert (Hfresh : forall p sz, In (p, sz) (fs_files host_fs) ->
                                entry_of (job_of (lit "abc")) p = None).
  { intros p sz Hin; simpl in Hin; destruct Hin as [Hin|[]].
    injection Hin as <- _; reflexivity. }
  destruct (workspace_kept_on_failure failing_extract (lit "abc")
              (lit "https://www.youtube.com/watch?v=abc") (lit "mp3") host_fs _ _
              eq_refl Hfresh Hres) as (_ & Hdir & Hfiles).
  split; [reflexivity|]; split; [exact Hres|]; split; [exact Hdir|].
  apply Hfiles; [repeat constructor; simpl; tauto|left; reflexivity].
Defined.






(* ------------------------------------------------------------------ *)
(** ** Serving files *)




Lemma plain_seg_not_dotdot (x : pystr) :
  plain_seg x = true -> str_eqb x (lit "..") = false.
Proof.
  unfold plain_seg; intro H; apply andb_true_iff in H as [_ H].
  apply negb_true_iff in H; exact H.
Qed.






Lemma walk_plain (s : fs) (p cur : path) :
  p <> [] -> forallb plain_seg p = true ->
  (forall k, (0 < k < List.length p)%nat -> is_dir s (cur ++ firstn k p) = true) ->
  walk s cur p = Some (cur ++ p).
Proof.
  revert cur; induction p as [|a r IH]; intros cur Hne Hp Hdirs; [contradiction|].
  simpl in Hp; apply andb_true_iff in Hp as [Ha Hr].
  cbn [walk]; rewrite plain_seg_not_dotdot by exact Ha.
  destruct r as [|b r'].
  - reflexivity.
  - assert (H1 : is_dir s (cur ++ [a]) = true) by (apply (Hdirs 1%nat); simpl; lia).
    rewrite H1.
    rewrite IH by (discriminate || exact Hr ||
                   (intros k Hk; rewrite <- app_assoc;
                    apply (Hdirs (S k)); simpl in *; lia)).
    rewrite <- app_assoc; reflexivity.
Qed.






(* ------------------------------------------------------------------ *)
(** ** Further properties of the handlers *)



(** The cookie test accepts a directory: when [/etc/secrets/cookies.txt]
    is a directory and the file system reports a positive [st_size] for
    directories, its path is handed to yt-dlp as the cookie file. *)
Theorem cookie_directory_attached (s : fs) (job : path) (codec : pystr)
  (Hetc : is_dir s [lit "etc"] = true)
  (Hsec : is_dir s [lit "etc"; lit "secrets"] = true)
  (Hdir : is_dir s COOKIES_FILE = true)
  (Hnf : file_size s COOKIES_FILE = None)
  (Hsz : (0 < fs_dir_size s COOKIES_FILE)%N) :
  opt_cookiefile (ydl_opts_of s job codec) = Some COOKIES_FILE.
Proof.
  assert (Hwalk : walk s [] COOKIES_FILE = Some COOKIES_FILE).
  { apply (walk_plain s COOKIES_FILE []); [discriminate|reflexivity|].
    intros k Hk; cbn in Hk.
    assert (k = 1%nat \/ k = 2%nat) as [-> | ->] by lia; assumption. }
  unfold ydl_opts_of, path_exists, stat_size; cbn [opt_cookiefile].
  rewrite Hwalk, Hdir, Hnf; cbn [orb andb].
  apply N.ltb_lt in Hsz; rewrite Hsz; reflexivity.
Qed.

Lemma cookie_directory_attached_witness :
  opt_cookiefile (ydl_opts_of cookie_dir_fs (job_of (lit "abc")) (lit "mp3"))
  = Some COOKIES_FILE.
Proof. apply cookie_directory_attached; reflexivity. Defined.

Lemma find_app_split {A} (f : A -> bool) (l1 l2 : list A) :
  find f (l1 ++ l2) = match find f l1 with Some x => Some x | None => find f l2 end.
Proof.
  induction l1 as [|a l1 IH]; [reflexivity|].
  simpl; destruct (f a); [reflexivity|exact IH].
Qed.








(** In the earlier iteration ([main copy.py]) a raising yt-dlp is reported
    with its own text: the detail is [Download failed: ] followed by the
    exception text, whatever that text is. *)
Theorem copy_failure_echoes_exception
  (BASE_DIR : path) (extract_info : ydl_opts -> pystr -> extract_outcome)
  (rand url format t : pystr) (s : fs)
  (Hurl : url_ok url = true)
  (Hraise : forall o, exists w, extract_info o url = Raised t w) :
  fst (MainCopy.download_youtube BASE_DIR extract_info rand url format s)
  = inl (HTTPException 500 (lit "Download failed: " ++ t)).
Proof.
  unfold MainCopy.download_youtube; rewrite Hurl; cbn [negb].
  unfold MainCopy.download_audio_with_cookies; cbv zeta.
  match goal with
  | |- context [extract_info ?o url] => destruct (Hraise o) as [w E]; rewrite E
  end.
  reflexivity.
Qed.

Lemma copy_failure_echoes_exception_witness :
  fst (MainCopy.download_youtube [lit "app"] failing_extract (lit "abc")
         (lit "https://www.youtube.com/watch?v=abc") (lit "mp3") host_fs)
  = inl (HTTPException 500
           (lit "Download failed: "
            ++ lit "ERROR: [youtube] abc: Sign in to confirm you are not a bot")).
Proof.
  apply copy_failure_echoes_exception; [reflexivity|].
  intro o; eexists; reflexivity.
Defined.

(** The earlier iteration's [title.replace("/", "_")] replaces exactly the
    slashes: the result has the same length, no [/], and every other code
    point (backslash, colon and the other characters main.py also
    replaces among them) at its place; so its file names stay inside the
    workspace but may hold characters main.py removes. *)
Theorem copy_replace_slash_only (title : pystr) :
  List.length (MainCopy.replace_slash title) = List.length title
  /\ existsb (N.eqb slash) (MainCopy.replace_slash title) = false
  /\ (forall i c, nth_error title i = Some c -> c <> slash ->
        nth_error (MainCopy.replace_slash title) i = Some c).
Proof.
  split; [apply length_map|]; split.
  - induction title as [|a title IH]; [reflexivity|].
    cbn [MainCopy.replace_slash map existsb] in *.
    fold (MainCopy.replace_slash title).
    destruct (N.eqb_spec a slash) as [->|Ha]; cbn [existsb].
    + exact IH.
    + destruct (N.eqb_spec slash a) as [E|_]; [congruence|exact IH].
  - intros i c Hi Hc; unfold MainCopy.replace_slash; rewrite nth_error_map, Hi.
    cbn [option_map]; destruct (N.eqb_spec c slash); [contradiction|reflexivity].
Qed.
